(** * Verification of the act-6.2 hotel reservation stores

    Shallow embedding of [customer.py], [hotel.py] and [reservation.py].
    A store is modelled by the list of records that its [load_all] returns;
    [save_all] replaces that list.  An operation that returns before
    [save_all] leaves the list as it was.  The loading of the JSON file
    itself is modelled separately in [Module Load]. *)

From Stdlib Require Import ZArith List String Ascii Bool Lia.
Import ListNotations.
Open Scope Z_scope.

(** ** Shared helpers *)

(** Python's [not s] on a string: true for the empty string. *)
Definition py_falsy (s : string) : bool := String.eqb s "".

(** Python's ["@" in s]: substring test for a one-character needle. *)
Fixpoint contains_char (c : ascii) (s : string) : bool :=
  match s with
  | EmptyString => false
  | String c' s' => Ascii.eqb c c' || contains_char c s'
  end.

(** The [for record in records: if p(record): ...; return ...] loop
    shared by the mutators: the body runs on the FIRST matching record;
    [None] is a [return False] without [save_all] (no match, or the body
    refused), [Some l'] is the list written by [save_all]. *)
Fixpoint update_first {A} (p : A -> bool) (f : A -> option A) (l : list A)
  : option (list A) :=
  match l with
  | [] => None
  | x :: l' =>
      if p x then option_map (fun x' => x' :: l') (f x)
      else option_map (cons x) (update_first p f l')
  end.

(** First record satisfying [p] (the record the loops above act on). *)
Fixpoint find_first {A} (p : A -> bool) (l : list A) : option A :=
  match l with
  | [] => None
  | x :: l' => if p x then Some x else find_first p l'
  end.

(** ** Hotel store ([hotel.py]) *)
Module Hotel.

Record hotel := mkHotel {
  hotel_id : string;
  name : string;
  location : string;
  rooms : Z;
  rooms_available : Z
}.

Definition store := list hotel.

Definition is_id (hid : string) (r : hotel) : bool := String.eqb (hotel_id r) hid.

(** [Hotel(hotel_id, name, location, rooms).to_dict()] *)
Definition init (hid nm loc : string) (rms : Z) : hotel :=
  mkHotel hid nm loc rms rms.

(** [_validate_rooms]: [isinstance(value, int) and value > 0]; the
    argument is an integer by its type here. *)
Definition validate_rooms (v : Z) : bool := 0 <? v.

(** [create_hotel]: the new instance (or [None]) and the store after. *)
Definition create_hotel (hid nm loc : string) (rms : Z) (s : store)
  : option hotel * store :=
  if py_falsy hid || py_falsy nm then (None, s)
  else if negb (validate_rooms rms) then (None, s)
  else if existsb (is_id hid) s then (None, s)
  else (Some (init hid nm loc rms), s ++ [init hid nm loc rms]).

(** [delete_hotel]: the list comprehension drops every record with the id;
    no record dropped means [return False] before [save_all]. *)
Definition delete_hotel (hid : string) (s : store) : bool * store :=
  let s' := filter (fun r => negb (is_id hid r)) s in
  if Nat.eqb (List.length s') (List.length s) then (false, s) else (true, s').

(** Keyword arguments of [modify_hotel]: each is present or absent. *)
Record hotel_kwargs := {
  kw_name : option string;
  kw_location : option string;
  kw_rooms : option Z
}.

Definition set_opt {A} (o : option A) (d : A) : A :=
  match o with Some v => v | None => d end.

(** Body of [modify_hotel] on the matching record. *)
Definition modify_record (kw : hotel_kwargs) (r : hotel) : option hotel :=
  let r1 :=
    match kw_rooms kw with
    | Some v =>
        if validate_rooms v then
          Some (mkHotel (hotel_id r) (name r) (location r) (rooms r)
                  (Z.max 0 (rooms_available r + (v - rooms r))))
        else None
    | None => Some r
    end in
  option_map (fun r1 =>
    mkHotel (hotel_id r1) (set_opt (kw_name kw) (name r1))
            (set_opt (kw_location kw) (location r1))
            (set_opt (kw_rooms kw) (rooms r1)) (rooms_available r1)) r1.

Definition modify_hotel (hid : string) (kw : hotel_kwargs) (s : store)
  : bool * store :=
  match update_first (is_id hid) (modify_record kw) s with
  | Some s' => (true, s')
  | None => (false, s)
  end.

(** Body of [reserve_room] on the matching record. *)
Definition reserve_record (r : hotel) : option hotel :=
  if rooms_available r <=? 0 then None
  else Some (mkHotel (hotel_id r) (name r) (location r) (rooms r)
               (rooms_available r - 1)).

Definition reserve_room (hid : string) (s : store) : bool * store :=
  match update_first (is_id hid) reserve_record s with
  | Some s' => (true, s')
  | None => (false, s)
  end.

(** Body of [cancel_reservation] on the matching record. *)
Definition release_record (r : hotel) : option hotel :=
  if rooms r <=? rooms_available r then None
  else Some (mkHotel (hotel_id r) (name r) (location r) (rooms r)
               (rooms_available r + 1)).

Definition cancel_reservation (hid : string) (s : store) : bool * store :=
  match update_first (is_id hid) release_record s with
  | Some s' => (true, s')
  | None => (false, s)
  end.

Definition find_hotel (hid : string) (s : store) : option hotel :=
  find_first (is_id hid) s.

(** The operations of the Hotel store, with their arguments. *)
Inductive op :=
| CreateHotel (hid nm loc : string) (rms : Z)
| ModifyHotel (hid : string) (kw : hotel_kwargs)
| ReserveRoom (hid : string)
| CancelReservation (hid : string)
| DeleteHotel (hid : string).

Definition run_op (o : op) (s : store) : store :=
  match o with
  | CreateHotel hid nm loc rms => snd (create_hotel hid nm loc rms s)
  | ModifyHotel hid kw => snd (modify_hotel hid kw s)
  | ReserveRoom hid => snd (reserve_room hid s)
  | CancelReservation hid => snd (cancel_reservation hid s)
  | DeleteHotel hid => snd (delete_hotel hid s)
  end.

(** The data-model invariant of a hotel record. *)
Definition record_ok (r : hotel) : Prop :=
  0 <= rooms_available r <= rooms r.

Definition store_ok (s : store) : Prop := Forall record_ok s.

(** [display_hotel]: the first record with the id, or [None] (the
    printed line is not modelled). *)
Definition display_hotel (hid : string) (s : store) : option hotel :=
  find_first (is_id hid) s.

(** A hotel dict as [to_dict] writes it and [from_dict] reads it: each
    key present with its value, or absent. *)
Record hotel_dict := mkHotelDict {
  d_hotel_id : option string;
  d_name : option string;
  d_location : option string;
  d_rooms : option Z;
  d_rooms_available : option Z
}.

Definition to_dict (h : hotel) : hotel_dict :=
  mkHotelDict (Some (hotel_id h)) (Some (name h)) (Some (location h))
              (Some (rooms h)) (Some (rooms_available h)).

(** [from_dict]: [None] is the [KeyError] of [data[...]] on a missing
    key; [rooms_available] defaults to [data["rooms"]] through [data.get]. *)
Definition from_dict (d : hotel_dict) : option hotel :=
  match d_hotel_id d, d_name d, d_location d, d_rooms d with
  | Some i, Some n, Some l, Some r =>
      Some (mkHotel i n l r (set_opt (d_rooms_available d) r))
  | _, _, _, _ => None
  end.

End Hotel.

(** ** Customer store ([customer.py]) *)
Module Customer.

Record customer := mkCustomer {
  customer_id : string;
  name : string;
  email : string
}.

Definition store := list customer.

Definition is_id (cid : string) (r : customer) : bool :=
  String.eqb (customer_id r) cid.

(** [_validate_email]: [not email or "@" not in email] is a failure. *)
Definition validate_email (e : string) : bool :=
  negb (py_falsy e) && contains_char "@"%char e.

Definition create_customer (cid nm em : string) (s : store)
  : option customer * store :=
  if py_falsy cid || py_falsy nm then (None, s)
  else if negb (validate_email em) then (None, s)
  else if existsb (is_id cid) s then (None, s)
  else (Some (mkCustomer cid nm em), s ++ [mkCustomer cid nm em]).

(** Keyword arguments of [modify_customer]. *)
Record customer_kwargs := {
  kw_name : option string;
  kw_email : option string
}.

(** Body of [modify_customer] on the matching record. *)
Definition modify_record (kw : customer_kwargs) (r : customer)
  : option customer :=
  let updated :=
    mkCustomer (customer_id r) (Hotel.set_opt (kw_name kw) (name r))
               (Hotel.set_opt (kw_email kw) (email r)) in
  match kw_email kw with
  | Some e => if validate_email e then Some updated else None
  | None => Some updated
  end.

Definition modify_customer (cid : string) (kw : customer_kwargs) (s : store)
  : bool * store :=
  match update_first (is_id cid) (modify_record kw) s with
  | Some s' => (true, s')
  | None => (false, s)
  end.

(** [delete_customer]: the list comprehension drops every record with the
    id; nothing dropped means [return False] before [save_all]. *)
Definition delete_customer (cid : string) (s : store) : bool * store :=
  let s' := filter (fun r => negb (is_id cid r)) s in
  if Nat.eqb (List.length s') (List.length s) then (false, s) else (true, s').

(** [display_customer]: the first record with the id, or [None]. *)
Definition display_customer (cid : string) (s : store) : option customer :=
  find_first (is_id cid) s.

(** The operations of the Customer store that write it. *)
Inductive op :=
| CreateCustomer (cid nm em : string)
| ModifyCustomer (cid : string) (kw : customer_kwargs)
| DeleteCustomer (cid : string).

Definition run_op (o : op) (s : store) : store :=
  match o with
  | CreateCustomer cid nm em => snd (create_customer cid nm em s)
  | ModifyCustomer cid kw => snd (modify_customer cid kw s)
  | DeleteCustomer cid => snd (delete_customer cid s)
  end.

(** A customer dict: each key present or absent. *)
Record customer_dict := mkCustomerDict {
  d_customer_id : option string;
  d_name : option string;
  d_email : option string
}.

Definition to_dict (c : customer) : customer_dict :=
  mkCustomerDict (Some (customer_id c)) (Some (name c)) (Some (email c)).

(** [from_dict]: [None] is the [KeyError] of a missing key. *)
Definition from_dict (d : customer_dict) : option customer :=
  match d_customer_id d, d_name d, d_email d with
  | Some i, Some n, Some e => Some (mkCustomer i n e)
  | _, _, _ => None
  end.

End Customer.

(** ** Reservation store ([reservation.py]) *)
Module Reservation.

Record reservation := mkReservation {
  reservation_id : string;
  customer_id : string;
  hotel_id : string
}.

Definition store := list reservation.

Definition is_id (rid : string) (r : reservation) : bool :=
  String.eqb (reservation_id r) rid.

(** The three JSON files a reservation operation reads and writes. *)
Record world := mkWorld {
  customers : Customer.store;
  hotels : Hotel.store;
  reservations : store
}.

(** [create_reservation]: the checks in source order; the Hotel store is
    written only through [Hotel.reserve_room], the reservation store only
    by the final [save_all]. *)
Definition create_reservation (rid cid hid : string) (w : world)
  : option reservation * world :=
  if py_falsy rid then (None, w)
  else if existsb (is_id rid) (reservations w) then (None, w)
  else if negb (existsb (Customer.is_id cid) (customers w)) then (None, w)
  else if negb (existsb (Hotel.is_id hid) (hotels w)) then (None, w)
  else
    let '(ok, hs) := Hotel.reserve_room hid (hotels w) in
    if negb ok then (None, mkWorld (customers w) hs (reservations w))
    else (Some (mkReservation rid cid hid),
          mkWorld (customers w) hs
                  (reservations w ++ [mkReservation rid cid hid])).

(** [cancel_reservation]: the first record with the id is the target; the
    result of [Hotel.cancel_reservation] is not inspected; the list
    comprehension then drops every record with the id. *)
Definition cancel_reservation (rid : string) (w : world) : bool * world :=
  match find_first (is_id rid) (reservations w) with
  | None => (false, w)
  | Some target =>
      let '(_, hs) := Hotel.cancel_reservation (hotel_id target) (hotels w) in
      (true, mkWorld (customers w) hs
               (filter (fun r => negb (is_id rid r)) (reservations w)))
  end.

(** A reservation dict: each key present or absent. *)
Record reservation_dict := mkReservationDict {
  d_reservation_id : option string;
  d_customer_id : option string;
  d_hotel_id : option string
}.

Definition to_dict (r : reservation) : reservation_dict :=
  mkReservationDict (Some (reservation_id r)) (Some (customer_id r))
                    (Some (hotel_id r)).

(** [from_dict]: [None] is the [KeyError] of a missing key. *)
Definition from_dict (d : reservation_dict) : option reservation :=
  match d_reservation_id d, d_customer_id d, d_hotel_id d with
  | Some i, Some c, Some h => Some (mkReservation i c h)
  | _, _, _ => None
  end.

End Reservation.

(** ** Loading a JSON file ([load_all], identical in the three stores) *)
Module Load.

#[local] Set Warnings "-register-all".

(** JSON values as [json.load] returns them. *)
Inductive json :=
| JNull
| JBool (b : bool)
| JNum (z : Z)
| JStr (s : list Z)
| JArr (l : list json)
| JObj (l : list (list Z * json)).

(** What [path] names on disk, as seen by [os.path.exists] and [open]. *)
Inductive entry :=
| RegularFile (bytes : list Z)
| Directory
| Unreadable.

(** Exceptions raised while loading. *)
Inductive exn :=
| JSONDecodeError
| IOError
| UnicodeDecodeError.

Inductive result (A : Type) :=
| Ok (v : A)
| Raise (e : exn).
Arguments Ok {A} v.
Arguments Raise {A} e.

Definition cont (b : Z) : bool := (128 <=? b) && (b <=? 191).
Definition cbits (b : Z) : Z := Z.land b 63.

(** Python's strict UTF-8 decoder ([open(..., encoding="utf-8")]): code
    points, or [None] where it raises [UnicodeDecodeError].  Overlong
    forms, surrogates and values above U+10FFFF are rejected through the
    ranges of the second byte, as in the Unicode table of well-formed
    byte sequences. *)
Fixpoint utf8_decode (l : list Z) : option (list Z) :=
  match l with
  | [] => Some []
  | b1 :: r1 =>
    if b1 <=? 127 then option_map (cons b1) (utf8_decode r1)
    else if (194 <=? b1) && (b1 <=? 223) then
      match r1 with
      | b2 :: r2 =>
          if cont b2 then
            option_map (cons (Z.lor (Z.shiftl (b1 - 192) 6) (cbits b2)))
                       (utf8_decode r2)
          else None
      | [] => None
      end
    else if (224 <=? b1) && (b1 <=? 239) then
      let lo := if b1 =? 224 then 160 else 128 in
      let hi := if b1 =? 237 then 159 else 191 in
      match r1 with
      | b2 :: b3 :: r3 =>
          if (lo <=? b2) && (b2 <=? hi) && cont b3 then
            option_map (cons (Z.lor (Z.shiftl (b1 - 224) 12)
                              (Z.lor (Z.shiftl (cbits b2) 6) (cbits b3))))
                       (utf8_decode r3)
          else None
      | _ => None
      end
    else if (240 <=? b1) && (b1 <=? 244) then
      let lo := if b1 =? 240 then 144 else 128 in
      let hi := if b1 =? 244 then 143 else 191 in
      match r1 with
      | b2 :: b3 :: b4 :: r4 =>
          if (lo <=? b2) && (b2 <=? hi) && cont b3 && cont b4 then
            option_map (cons (Z.lor (Z.shiftl (b1 - 240) 18)
                              (Z.lor (Z.shiftl (cbits b2) 12)
                                     (Z.lor (Z.shiftl (cbits b3) 6) (cbits b4)))))
                       (utf8_decode r4)
          else None
      | _ => None
      end
    else None
  end.

(** Universal-newline translation of text mode: CR LF and CR become LF. *)
Fixpoint newlines (l : list Z) : list Z :=
  match l with
  | 13 :: 10 :: r => 10 :: newlines r
  | 13 :: r => 10 :: newlines r
  | c :: r => c :: newlines r
  | [] => []
  end.

Section LoadAll.

(** [json.loads] on the decoded text; [None] is a [JSONDecodeError].  The
    JSON grammar is left abstract: every statement below holds for any
    parser. *)
Variable json_parse : list Z -> option json.

(** [load_all(path)], with [None] for a path that does not exist:
    [open] failing on an existing path is an [IOError] (caught), a
    decoding failure of [fhandle.read()] is a [UnicodeDecodeError]
    (not in the [except] clause), a parse failure is a [JSONDecodeError]
    (caught). *)
Definition load_all (path : option entry) : result json :=
  match path with
  | None => Ok (JArr [])
  | Some Directory | Some Unreadable => Ok (JArr [])
  | Some (RegularFile bytes) =>
      match utf8_decode bytes with
      | None => Raise UnicodeDecodeError
      | Some text =>
          match json_parse (newlines text) with
          | None => Ok (JArr [])
          | Some v => Ok v
          end
      end
  end.

End LoadAll.

End Load.

(** * Properties *)

(** ** The first-match loop *)

Section FirstMatch.
Context {A : Type} (p : A -> bool).

Lemma find_first_split (l : list A) (x : A) :
  find_first p l = Some x ->
  exists pre post, l = pre ++ x :: post /\
    Forall (fun y => p y = false) pre /\ p x = true.
Proof.
  induction l as [|y l IH]; simpl; [discriminate|].
  case_eq (p y); intros Hy H.
  - injection H as <-. exists [], l. auto.
  - destruct (IH H) as (pre & post & -> & Hpre & Hx).
    exists (y :: pre), post. simpl. auto.
Qed.

Lemma find_first_app (pre post : list A) (x : A) :
  Forall (fun y => p y = false) pre -> p x = true ->
  find_first p (pre ++ x :: post) = Some x.
Proof.
  intros Hpre Hx. induction Hpre as [|y pre Hy _ IH]; simpl.
  - now rewrite Hx.
  - now rewrite Hy.
Qed.

Lemma update_first_app (f : A -> option A) (pre post : list A) (x : A) :
  Forall (fun y => p y = false) pre -> p x = true ->
  update_first p f (pre ++ x :: post) =
  option_map (fun x' => pre ++ x' :: post) (f x).
Proof.
  intros Hpre Hx. induction Hpre as [|y pre Hy _ IH]; simpl.
  - rewrite Hx. now destruct (f x).
  - rewrite Hy, IH. now destruct (f x).
Qed.

Lemma update_first_not_found (f : A -> option A) (l : list A) :
  find_first p l = None -> update_first p f l = None.
Proof.
  induction l as [|y l IH]; simpl; [reflexivity|].
  destruct (p y); [discriminate|]. intros H. now rewrite (IH H).
Qed.

Lemma update_first_Forall (P : A -> Prop) (f : A -> option A) (l l' : list A) :
  (forall x x', P x -> f x = Some x' -> P x') ->
  Forall P l -> update_first p f l = Some l' -> Forall P l'.
Proof.
  intros Hf Hl. revert l'. induction Hl as [|y l Hy Hl IH]; simpl; intros l' H.
  - discriminate.
  - destruct (p y).
    + destruct (f y) as [y'|] eqn:E; simpl in H; [|discriminate].
      injection H as <-. constructor; eauto.
    + destruct (update_first p f l) as [l1|]; simpl in H; [|discriminate].
      injection H as <-. constructor; auto.
Qed.

End FirstMatch.

Lemma existsb_id_In {A} (key : A -> string) (k : string) (l : list A) :
  existsb (fun r => String.eqb (key r) k) l = true <-> In k (map key l).
Proof.
  rewrite existsb_exists, in_map_iff. split.
  - intros (x & Hx & E). apply String.eqb_eq in E. eauto.
  - intros (x & E & Hx). exists x. split; [exact Hx|]. now apply String.eqb_eq.
Qed.

(** Evaluation on the example of the spec: a two-room hotel accepts two
    reservations and refuses the third. *)
Example hotel_example :
  let s0 := snd (Hotel.create_hotel "H1" "Grand" "CDMX" 2 []) in
  let '(ok1, s1) := Hotel.reserve_room "H1" s0 in
  let '(ok2, s2) := Hotel.reserve_room "H1" s1 in
  let '(ok3, s3) := Hotel.reserve_room "H1" s2 in
  (ok1, ok2, ok3, Hotel.find_hotel "H1" s3)
  = (true, true, false, Some (Hotel.mkHotel "H1" "Grand" "CDMX" 2 0)).
Proof. reflexivity. Qed.

(** ** Hotel store *)

Lemma modify_record_ok (kw : Hotel.hotel_kwargs) (r r' : Hotel.hotel) :
  Hotel.record_ok r -> Hotel.modify_record kw r = Some r' -> Hotel.record_ok r'.
Proof.
  unfold Hotel.record_ok, Hotel.modify_record, Hotel.validate_rooms.
  destruct kw as [n l [v|]]; simpl; intros Hr H.
  - destruct (0 <? v) eqn:Hv; [|discriminate].
    apply Z.ltb_lt in Hv. injection H as <-. simpl. lia.
  - injection H as <-. simpl. exact Hr.
Qed.

Lemma reserve_record_ok (r r' : Hotel.hotel) :
  Hotel.record_ok r -> Hotel.reserve_record r = Some r' -> Hotel.record_ok r'.
Proof.
  unfold Hotel.record_ok, Hotel.reserve_record. intros Hr H.
  destruct (Hotel.rooms_available r <=? 0) eqn:E; [discriminate|].
  apply Z.leb_gt in E. injection H as <-. simpl. lia.
Qed.

Lemma release_record_ok (r r' : Hotel.hotel) :
  Hotel.record_ok r -> Hotel.release_record r = Some r' -> Hotel.record_ok r'.
Proof.
  unfold Hotel.record_ok, Hotel.release_record. intros Hr H.
  destruct (Hotel.rooms r <=? Hotel.rooms_available r) eqn:E; [discriminate|].
  apply Z.leb_gt in E. injection H as <-. simpl. lia.
Qed.

(** Claim C1: every Hotel store operation (create_hotel, modify_hotel with
    or without a rooms change, reserve_room, cancel_reservation,
    delete_hotel) maps a store whose records all satisfy
    [0 <= rooms_available <= rooms] to a store whose records all satisfy it. *)
Theorem hotel_ops_preserve_invariant (o : Hotel.op) (s : Hotel.store) :
  Hotel.store_ok s -> Hotel.store_ok (Hotel.run_op o s).
Proof.
  unfold Hotel.store_ok. intros Hs.
  destruct o as [hid nm loc rms | hid kw | hid | hid | hid]; simpl.
  - unfold Hotel.create_hotel.
    destruct (py_falsy hid || py_falsy nm); [exact Hs|].
    destruct (Hotel.validate_rooms rms) eqn:Hv; simpl; [|exact Hs].
    destruct (existsb (Hotel.is_id hid) s); simpl; [exact Hs|].
    apply Forall_app. split; [exact Hs|]. constructor; [|constructor].
    unfold Hotel.validate_rooms in Hv. apply Z.ltb_lt in Hv.
    unfold Hotel.record_ok, Hotel.init. simpl. lia.
  - unfold Hotel.modify_hotel.
    destruct (update_first _ _ s) as [s'|] eqn:E; [|exact Hs].
    exact (update_first_Forall _ _ _ _ _ (modify_record_ok kw) Hs E).
  - unfold Hotel.reserve_room.
    destruct (update_first _ _ s) as [s'|] eqn:E; [|exact Hs].
    exact (update_first_Forall _ _ _ _ _ reserve_record_ok Hs E).
  - unfold Hotel.cancel_reservation.
    destruct (update_first _ _ s) as [s'|] eqn:E; [|exact Hs].
    exact (update_first_Forall _ _ _ _ _ release_record_ok Hs E).
  - unfold Hotel.delete_hotel.
    destruct (Nat.eqb _ _); simpl; [exact Hs|].
    apply Forall_forall. intros x Hx. apply filter_In in Hx.
    exact (proj1 (Forall_forall _ _) Hs x (proj1 Hx)).
Qed.

Lemma hotel_ops_preserve_invariant_witness :
  Hotel.store_ok [Hotel.mkHotel "H1" "Grand" "CDMX" 2 1] /\
  Hotel.store_ok
    (Hotel.run_op (Hotel.ModifyHotel "H1" {| Hotel.kw_name := None;
                      Hotel.kw_location := None; Hotel.kw_rooms := Some 1 |})
                  [Hotel.mkHotel "H1" "Grand" "CDMX" 2 1]).
Proof.
  assert (H : Hotel.store_ok [Hotel.mkHotel "H1" "Grand" "CDMX" 2 1]).
  { constructor; [unfold Hotel.record_ok; simpl; lia | constructor]. }
  split; [exact H | apply hotel_ops_preserve_invariant; exact H].
Defined.

(** Claim C4: when the first hotel with [hid] satisfies
    [0 <= rooms_available <= rooms] and has [rooms_available > 0],
    [reserve_room hid] succeeds, and [cancel_reservation hid] on its result
    succeeds and gives back the original store, hence the original
    [rooms_available]. *)
Theorem reserve_then_cancel_restores (hid : string) (s : Hotel.store)
    (h : Hotel.hotel) :
  Hotel.find_hotel hid s = Some h ->
  Hotel.record_ok h ->
  0 < Hotel.rooms_available h ->
  exists s1, Hotel.reserve_room hid s = (true, s1) /\
             Hotel.cancel_reservation hid s1 = (true, s).
Proof.
  unfold Hotel.find_hotel, Hotel.record_ok. intros Hf Hok Hpos.
  destruct (find_first_split _ _ _ Hf) as (pre & post & -> & Hpre & Hh).
  destruct h as [i n l r a]; simpl in *.
  set (h1 := Hotel.mkHotel i n l r (a - 1)).
  exists (pre ++ h1 :: post).
  unfold Hotel.reserve_room, Hotel.cancel_reservation.
  rewrite (update_first_app _ _ _ _ _ Hpre Hh).
  unfold Hotel.reserve_record at 1; simpl.
  destruct (a <=? 0) eqn:E1; [apply Z.leb_le in E1; lia|]. simpl.
  split; [reflexivity|].
  rewrite (update_first_app _ _ _ _ h1 Hpre Hh).
  unfold Hotel.release_record, h1; simpl.
  destruct (r <=? a - 1) eqn:E2; [apply Z.leb_le in E2; lia|]. simpl.
  do 3 f_equal. f_equal. lia.
Qed.

Lemma reserve_then_cancel_restores_witness :
  exists s1,
    Hotel.reserve_room "H1" [Hotel.mkHotel "H1" "Grand" "CDMX" 2 2] = (true, s1) /\
    Hotel.cancel_reservation "H1" s1 = (true, [Hotel.mkHotel "H1" "Grand" "CDMX" 2 2]).
Proof.
  apply (reserve_then_cancel_restores "H1" _ (Hotel.mkHotel "H1" "Grand" "CDMX" 2 2)).
  - reflexivity.
  - unfold Hotel.record_ok; simpl; lia.
  - simpl; lia.
Defined.

(** Claim C6: on a store where [hid] is present, [modify_hotel] with a
    positive integer [rooms] value [r'] (and any name/location arguments)
    succeeds and the matching record gets [rooms = r'] and
    [rooms_available = max 0 (old_rooms_available + (r' - old_rooms))]:
    clamped below at 0 and not clamped above at [r']. *)
Theorem modify_hotel_rooms (hid : string) (s : Hotel.store) (h : Hotel.hotel)
    (n l : option string) (r' : Z) :
  Hotel.find_hotel hid s = Some h ->
  0 < r' ->
  exists s',
    Hotel.modify_hotel hid {| Hotel.kw_name := n; Hotel.kw_location := l;
                              Hotel.kw_rooms := Some r' |} s = (true, s') /\
    Hotel.find_hotel hid s' =
      Some (Hotel.mkHotel (Hotel.hotel_id h)
              (Hotel.set_opt n (Hotel.name h)) (Hotel.set_opt l (Hotel.location h))
              r' (Z.max 0 (Hotel.rooms_available h + (r' - Hotel.rooms h)))).
Proof.
  unfold Hotel.find_hotel. intros Hf Hr.
  destruct (find_first_split _ _ _ Hf) as (pre & post & -> & Hpre & Hh).
  unfold Hotel.modify_hotel. rewrite (update_first_app _ _ _ _ _ Hpre Hh).
  unfold Hotel.modify_record, Hotel.validate_rooms; simpl.
  destruct (0 <? r') eqn:E; [|apply Z.ltb_ge in E; lia]. simpl.
  eexists. split; [reflexivity|].
  apply find_first_app; [exact Hpre|]. exact Hh.
Qed.

Lemma modify_hotel_rooms_witness :
  exists s',
    Hotel.modify_hotel "H1" {| Hotel.kw_name := None; Hotel.kw_location := None;
                               Hotel.kw_rooms := Some 5 |}
      [Hotel.mkHotel "H1" "Grand" "CDMX" 2 1] = (true, s') /\
    Hotel.find_hotel "H1" s' =
      Some (Hotel.mkHotel "H1" "Grand" "CDMX" 5 (Z.max 0 (1 + (5 - 2)))).
Proof.
  apply (modify_hotel_rooms "H1" _ (Hotel.mkHotel "H1" "Grand" "CDMX" 2 1)).
  - reflexivity.
  - lia.
Defined.

(** The lower clamp on its own: shrinking a hotel below its reserved rooms
    leaves [rooms_available] at 0. *)
Example modify_hotel_clamps_at_zero :
  Hotel.modify_hotel "H1" {| Hotel.kw_name := None; Hotel.kw_location := None;
                             Hotel.kw_rooms := Some 1 |}
    [Hotel.mkHotel "H1" "Grand" "CDMX" 3 0]
  = (true, [Hotel.mkHotel "H1" "Grand" "CDMX" 1 0]).
Proof. reflexivity. Qed.

(** ** Customer store *)

Lemma find_first_not_in {A} (key : A -> string) (k : string) (l : list A) :
  ~ In k (map key l) -> find_first (fun r => String.eqb (key r) k) l = None.
Proof.
  induction l as [|y l IH]; simpl; intros H; [reflexivity|].
  destruct (String.eqb (key y) k) eqn:E.
  - apply String.eqb_eq in E. exfalso. auto.
  - apply IH. auto.
Qed.

Lemma validate_email_false (e : string) :
  e = ""%string \/ contains_char "@"%char e = false ->
  Customer.validate_email e = false.
Proof.
  unfold Customer.validate_email, py_falsy. intros [-> | H]; [reflexivity|].
  rewrite H. apply andb_false_r.
Qed.

Lemma validate_email_true (e : string) :
  e <> ""%string -> contains_char "@"%char e = true ->
  Customer.validate_email e = true.
Proof.
  unfold Customer.validate_email, py_falsy. intros H1 H2. rewrite H2.
  destruct (String.eqb e "") eqn:E; [apply String.eqb_eq in E; contradiction|].
  reflexivity.
Qed.

(** Claim C7: [modify_customer] returns false and writes nothing when
    [cid] is absent or a supplied email is empty or lacks "@"; otherwise it
    returns true and the store written differs from the old one only in the
    matching record, whose [customer_id] is kept and whose [name] and
    [email] are replaced exactly when supplied. *)
Theorem modify_customer_frame (cid : string) (kw : Customer.customer_kwargs)
    (s : Customer.store) :
  (~ In cid (map Customer.customer_id s) ->
     Customer.modify_customer cid kw s = (false, s)) /\
  (forall e, Customer.kw_email kw = Some e ->
     e = ""%string \/ contains_char "@"%char e = false ->
     Customer.modify_customer cid kw s = (false, s)) /\
  (In cid (map Customer.customer_id s) ->
   (forall e, Customer.kw_email kw = Some e ->
      e <> ""%string /\ contains_char "@"%char e = true) ->
   exists pre c post,
     s = pre ++ c :: post /\ Customer.customer_id c = cid /\
     Forall (fun y => Customer.customer_id y <> cid) pre /\
     Customer.modify_customer cid kw s =
       (true, pre ++ Customer.mkCustomer (Customer.customer_id c)
                       (Hotel.set_opt (Customer.kw_name kw) (Customer.name c))
                       (Hotel.set_opt (Customer.kw_email kw) (Customer.email c))
                     :: post)).
Proof.
  unfold Customer.modify_customer. split; [|split].
  - intros H. rewrite update_first_not_found; [reflexivity|].
    exact (find_first_not_in Customer.customer_id cid s H).
  - intros e He Hinv.
    destruct (find_first (Customer.is_id cid) s) as [x|] eqn:Hf.
    + destruct (find_first_split _ _ _ Hf) as (pre & post & Hs & Hpre & Hx).
      rewrite Hs, (update_first_app _ _ _ _ _ Hpre Hx).
      unfold Customer.modify_record. rewrite He, (validate_email_false e Hinv).
      reflexivity.
    + rewrite update_first_not_found; [reflexivity | exact Hf].
  - intros Hin Hval.
    destruct (find_first (Customer.is_id cid) s) as [c|] eqn:Hf.
    + destruct (find_first_split _ _ _ Hf) as (pre & post & Hs & Hpre & Hc).
      exists pre, c, post. split; [exact Hs|]. split.
      { unfold Customer.is_id in Hc. now apply String.eqb_eq. }
      split.
      { eapply Forall_impl; [|exact Hpre]. simpl. intros y Hy E.
        unfold Customer.is_id in Hy. rewrite E, String.eqb_refl in Hy.
        discriminate. }
      rewrite Hs, (update_first_app _ _ _ _ _ Hpre Hc).
      unfold Customer.modify_record.
      destruct (Customer.kw_email kw) as [e|] eqn:He; [|reflexivity].
      destruct (Hval e eq_refl) as [H1 H2].
      rewrite (validate_email_true e H1 H2). reflexivity.
    + exfalso. apply in_map_iff in Hin. destruct Hin as (x & Ex & Hx).
      assert (Hsome : exists y, find_first (Customer.is_id cid) s = Some y).
      { clear Hf. induction s as [|y s IH]; [destruct Hx|]. simpl.
        destruct (Customer.is_id cid y) eqn:E; [eauto|].
        destruct Hx as [-> | Hx]; [|auto].
        unfold Customer.is_id in E. rewrite Ex, String.eqb_refl in E.
        discriminate. }
      destruct Hsome as [y Hy]. congruence.
Qed.

Lemma modify_customer_frame_witness :
  Customer.modify_customer "C1"
    {| Customer.kw_name := None; Customer.kw_email := Some "bob@mail.com"%string |}
    [Customer.mkCustomer "C0" "Zoe" "zoe@mail.com";
     Customer.mkCustomer "C1" "Ana" "ana@mail.com"]
  = (false, [Customer.mkCustomer "C0" "Zoe" "zoe@mail.com";
             Customer.mkCustomer "C1" "Ana" "ana@mail.com"]) \/
  exists pre c post,
    [Customer.mkCustomer "C0" "Zoe" "zoe@mail.com";
     Customer.mkCustomer "C1" "Ana" "ana@mail.com"] = pre ++ c :: post /\
    Customer.customer_id c = "C1"%string /\
    Forall (fun y => Customer.customer_id y <> "C1"%string) pre /\
    Customer.modify_customer "C1"
      {| Customer.kw_name := None; Customer.kw_email := Some "bob@mail.com"%string |}
      [Customer.mkCustomer "C0" "Zoe" "zoe@mail.com";
       Customer.mkCustomer "C1" "Ana" "ana@mail.com"] =
      (true, pre ++ Customer.mkCustomer (Customer.customer_id c)
                      (Hotel.set_opt None (Customer.name c))
                      (Hotel.set_opt (Some "bob@mail.com"%string) (Customer.email c))
                    :: post).
Proof.
  right.
  apply (proj2 (proj2 (modify_customer_frame "C1"
    {| Customer.kw_name := None; Customer.kw_email := Some "bob@mail.com"%string |}
    [Customer.mkCustomer "C0" "Zoe" "zoe@mail.com";
     Customer.mkCustomer "C1" "Ana" "ana@mail.com"]))).
  - simpl. auto.
  - simpl. intros e He. injection He as <-. split; [discriminate | reflexivity].
Defined.

Lemma find_first_in {A} (key : A -> string) (k : string) (l : list A) :
  In k (map key l) -> exists x, find_first (fun r => String.eqb (key r) k) l = Some x.
Proof.
  intros Hin. destruct (find_first _ l) as [x|] eqn:E; [eauto|].
  exfalso. revert Hin E. induction l as [|y l IH]; simpl; [auto|].
  destruct (String.eqb (key y) k) eqn:Ey; [discriminate|].
  intros [<- | Hin] E; [|eauto]. rewrite String.eqb_refl in Ey. discriminate.
Qed.

Lemma existsb_id_false {A} (key : A -> string) (k : string) (l : list A) :
  existsb (fun r => String.eqb (key r) k) l = false <-> ~ In k (map key l).
Proof.
  rewrite <- existsb_id_In. split.
  - intros E H. congruence.
  - apply not_true_is_false.
Qed.

(** ** Duplicate identifiers *)

(** Claim C5: in each of the three stores, a create call whose id is
    already present fails and leaves the persisted collection as it was
    (for a reservation, neither the reservation nor the hotel store is
    written). *)
Theorem create_duplicate_fails_unchanged :
  (forall cid nm em s, In cid (map Customer.customer_id s) ->
     Customer.create_customer cid nm em s = (None, s)) /\
  (forall hid nm loc rms s, In hid (map Hotel.hotel_id s) ->
     Hotel.create_hotel hid nm loc rms s = (None, s)) /\
  (forall rid cid hid w,
     In rid (map Reservation.reservation_id (Reservation.reservations w)) ->
     Reservation.create_reservation rid cid hid w = (None, w)).
Proof.
  split; [|split].
  - intros cid nm em s Hin. unfold Customer.create_customer, Customer.is_id.
    destruct (py_falsy cid || py_falsy nm); [reflexivity|].
    destruct (negb (Customer.validate_email em)); [reflexivity|].
    apply existsb_id_In in Hin. now rewrite Hin.
  - intros hid nm loc rms s Hin. unfold Hotel.create_hotel, Hotel.is_id.
    destruct (py_falsy hid || py_falsy nm); [reflexivity|].
    destruct (negb (Hotel.validate_rooms rms)); [reflexivity|].
    apply existsb_id_In in Hin. now rewrite Hin.
  - intros rid cid hid w Hin. unfold Reservation.create_reservation, Reservation.is_id.
    destruct (py_falsy rid); [reflexivity|].
    apply existsb_id_In in Hin. now rewrite Hin.
Qed.

Lemma create_duplicate_fails_unchanged_witness :
  Customer.create_customer "C1" "Bob" "bob@mail.com"
    [Customer.mkCustomer "C1" "Ana" "ana@mail.com"]
  = (None, [Customer.mkCustomer "C1" "Ana" "ana@mail.com"]) /\
  Hotel.create_hotel "H1" "Plaza" "GDL" 5 [Hotel.mkHotel "H1" "Grand" "CDMX" 2 2]
  = (None, [Hotel.mkHotel "H1" "Grand" "CDMX" 2 2]) /\
  Reservation.create_reservation "R1" "C1" "H1"
    (Reservation.mkWorld [] [] [Reservation.mkReservation "R1" "C1" "H1"])
  = (None, Reservation.mkWorld [] [] [Reservation.mkReservation "R1" "C1" "H1"]).
Proof.
  destruct create_duplicate_fails_unchanged as (Hc & Hh & Hr).
  split; [apply Hc | split; [apply Hh | apply Hr]]; simpl; auto.
Defined.

(** ** Reservation store *)

(** Claim C9: a failing [create_reservation] (empty id, duplicate id,
    missing customer, missing hotel, no room left) writes neither the
    reservation store nor the hotel store. *)
Theorem create_reservation_failure_no_write (rid cid hid : string)
    (w w' : Reservation.world) :
  Reservation.create_reservation rid cid hid w = (None, w') -> w' = w.
Proof.
  unfold Reservation.create_reservation.
  destruct (py_falsy rid); [congruence|].
  destruct (existsb _ (Reservation.reservations w)); [congruence|].
  destruct (negb (existsb _ (Reservation.customers w))); [congruence|].
  destruct (negb (existsb _ (Reservation.hotels w))); [congruence|].
  unfold Hotel.reserve_room.
  destruct (update_first _ _ (Reservation.hotels w)) as [hs|]; simpl;
    [discriminate|].
  intros H. injection H as <-. now destruct w.
Qed.

Lemma create_reservation_failure_no_write_witness :
  let w0 := Reservation.mkWorld [Customer.mkCustomer "C1" "Ana" "ana@mail.com"]
              [Hotel.mkHotel "H1" "Grand" "CDMX" 2 0] [] in
  fst (Reservation.create_reservation "R1" "C1" "H1" w0) = None /\
  snd (Reservation.create_reservation "R1" "C1" "H1" w0) = w0.
Proof.
  intros w0. split; [reflexivity|].
  apply (create_reservation_failure_no_write "R1" "C1" "H1" w0). reflexivity.
Defined.

(** Claim C3: on a hotel store satisfying the data-model invariant,
    [create_reservation] fails exactly when the reservation id is empty or
    already used, the customer id is absent, the hotel id is absent, or the
    referenced hotel (the first record with that id) has no room left;
    otherwise it returns the new reservation, appends it to the reservation
    store and decrements that hotel's [rooms_available] by one. *)
Theorem create_reservation_spec (rid cid hid : string) (w : Reservation.world) :
  Hotel.store_ok (Reservation.hotels w) ->
  let fails :=
    rid = ""%string \/
    In rid (map Reservation.reservation_id (Reservation.reservations w)) \/
    ~ In cid (map Customer.customer_id (Reservation.customers w)) \/
    ~ In hid (map Hotel.hotel_id (Reservation.hotels w)) \/
    (exists h, Hotel.find_hotel hid (Reservation.hotels w) = Some h /\
               Hotel.rooms_available h = 0) in
  match Reservation.create_reservation rid cid hid w with
  | (None, _) => fails
  | (Some r, w') =>
      ~ fails /\ r = Reservation.mkReservation rid cid hid /\
      Reservation.reservations w' = Reservation.reservations w ++ [r] /\
      exists h, Hotel.find_hotel hid (Reservation.hotels w) = Some h /\
        Hotel.find_hotel hid (Reservation.hotels w') =
          Some (Hotel.mkHotel (Hotel.hotel_id h) (Hotel.name h) (Hotel.location h)
                  (Hotel.rooms h) (Hotel.rooms_available h - 1))
  end.
Proof.
  intros Hok fails. unfold Reservation.create_reservation.
  destruct (py_falsy rid) eqn:E1.
  { left. now apply String.eqb_eq. }
  unfold Reservation.is_id.
  destruct (existsb _ (Reservation.reservations w)) eqn:E2.
  { right; left. now apply existsb_id_In in E2. }
  unfold Customer.is_id.
  destruct (existsb _ (Reservation.customers w)) eqn:E3; simpl;
    [|right; right; left; now apply existsb_id_false in E3].
  unfold Hotel.is_id at 1.
  destruct (existsb _ (Reservation.hotels w)) eqn:E4; simpl;
    [|right; right; right; left; now apply existsb_id_false in E4].
  apply existsb_id_In in E4.
  destruct (find_first_in _ _ _ E4) as [h Hf].
  destruct (find_first_split _ _ _ Hf) as (pre & post & Hs & Hpre & Hh).
  assert (Hh_ok : Hotel.record_ok h).
  { unfold Hotel.store_ok in Hok. rewrite Forall_forall in Hok. apply Hok.
    rewrite Hs. apply in_or_app. right. left. reflexivity. }
  unfold Hotel.reserve_room. rewrite Hs, (update_first_app _ _ _ _ _ Hpre Hh).
  unfold Hotel.reserve_record.
  destruct (Hotel.rooms_available h <=? 0) eqn:E5; simpl.
  - right; right; right; right. exists h. split; [exact Hf|].
    apply Z.leb_le in E5. unfold Hotel.record_ok in Hh_ok. lia.
  - apply Z.leb_gt in E5. split; [|split; [reflexivity|split; [reflexivity|]]].
    + unfold fails. intros [H|[H|[H|[H|(h' & Hf' & H)]]]].
      * subst rid. discriminate.
      * apply existsb_id_In in H. congruence.
      * apply H. now apply existsb_id_In.
      * contradiction.
      * unfold Hotel.find_hotel, Hotel.is_id in Hf'. rewrite Hf in Hf'.
        injection Hf' as <-. lia.
    + exists h. unfold Hotel.find_hotel. simpl.
      split; apply find_first_app; assumption.
Qed.

Lemma create_reservation_spec_witness :
  let w0 := Reservation.mkWorld [Customer.mkCustomer "C1" "Ana" "ana@mail.com"]
              [Hotel.mkHotel "H1" "Grand" "CDMX" 2 1] [] in
  Hotel.store_ok (Reservation.hotels w0) /\
  match Reservation.create_reservation "R1" "C1" "H1" w0 with
  | (None, _) =>
      "R1"%string = ""%string \/
      In "R1"%string (map Reservation.reservation_id (Reservation.reservations w0)) \/
      ~ In "C1"%string (map Customer.customer_id (Reservation.customers w0)) \/
      ~ In "H1"%string (map Hotel.hotel_id (Reservation.hotels w0)) \/
      (exists h, Hotel.find_hotel "H1" (Reservation.hotels w0) = Some h /\
                 Hotel.rooms_available h = 0)
  | (Some r, w') =>
      ~ ("R1"%string = ""%string \/
      In "R1"%string (map Reservation.reservation_id (Reservation.reservations w0)) \/
      ~ In "C1"%string (map Customer.customer_id (Reservation.customers w0)) \/
      ~ In "H1"%string (map Hotel.hotel_id (Reservation.hotels w0)) \/
      (exists h, Hotel.find_hotel "H1" (Reservation.hotels w0) = Some h /\
                 Hotel.rooms_available h = 0)) /\
      r = Reservation.mkReservation "R1" "C1" "H1" /\
      Reservation.reservations w' = Reservation.reservations w0 ++ [r] /\
      exists h, Hotel.find_hotel "H1" (Reservation.hotels w0) = Some h /\
        Hotel.find_hotel "H1" (Reservation.hotels w') =
          Some (Hotel.mkHotel (Hotel.hotel_id h) (Hotel.name h) (Hotel.location h)
                  (Hotel.rooms h) (Hotel.rooms_available h - 1))
  end.
Proof.
  intros w0.
  assert (Hok : Hotel.store_ok (Reservation.hotels w0)).
  { constructor; [unfold Hotel.record_ok; simpl; lia | constructor]. }
  split; [exact Hok|].
  exact (create_reservation_spec "R1" "C1" "H1" w0 Hok).
Defined.

(** A reachable state in which a reservation outlives the room it took:
    two reservations on a two-room hotel, the hotel shrunk to one room
    ([rooms_available] clamped at 0), then R1 cancelled. *)
Definition shrunk_world : Reservation.world :=
  let w0 := Reservation.mkWorld
              (snd (Customer.create_customer "C1" "Ana" "ana@mail.com" []))
              (snd (Hotel.create_hotel "H1" "Grand" "CDMX" 2 [])) [] in
  let w1 := snd (Reservation.create_reservation "R1" "C1" "H1" w0) in
  let w2 := snd (Reservation.create_reservation "R2" "C1" "H1" w1) in
  let w3 := Reservation.mkWorld (Reservation.customers w2)
              (snd (Hotel.modify_hotel "H1"
                      {| Hotel.kw_name := None; Hotel.kw_location := None;
                         Hotel.kw_rooms := Some 1 |} (Reservation.hotels w2)))
              (Reservation.reservations w2) in
  snd (Reservation.cancel_reservation "R1" w3).

Example shrunk_world_value :
  shrunk_world =
  Reservation.mkWorld [Customer.mkCustomer "C1" "Ana" "ana@mail.com"]
    [Hotel.mkHotel "H1" "Grand" "CDMX" 1 1]
    [Reservation.mkReservation "R2" "C1" "H1"].
Proof. reflexivity. Qed.

(** Counterexample to claim C2: in [shrunk_world], which contains R2,
    cancelling R2 succeeds but the rooms_available of H1 stays 1 instead
    of becoming 2. *)
Lemma cancel_reservation_no_release :
  In "R2"%string
     (map Reservation.reservation_id (Reservation.reservations shrunk_world)) /\
  fst (Reservation.cancel_reservation "R2" shrunk_world) = true /\
  option_map Hotel.rooms_available
    (Hotel.find_hotel "H1"
       (Reservation.hotels (snd (Reservation.cancel_reservation "R2" shrunk_world))))
  <> option_map (fun h => Hotel.rooms_available h + 1)
       (Hotel.find_hotel "H1" (Reservation.hotels shrunk_world)).
Proof.
  split; [vm_compute; auto|]. split; [reflexivity|].
  vm_compute. discriminate.
Qed.

Lemma filter_drops_id (rid : string) (rs : Reservation.store) :
  ~ In rid (map Reservation.reservation_id
              (filter (fun r => negb (Reservation.is_id rid r)) rs)).
Proof.
  rewrite in_map_iff. intros (r & E & Hr). apply filter_In in Hr.
  destruct Hr as [_ Hr]. unfold Reservation.is_id in Hr.
  rewrite E, String.eqb_refl in Hr. discriminate.
Qed.

(** Claim C2 (as amended): when the reservation store contains [rid],
    [cancel_reservation] returns true and removes every record with that
    id; the hotel referenced by the first such record gains exactly one
    available room when it is present with [rooms_available < rooms], and
    the hotel store is left as it was otherwise. *)
Theorem cancel_reservation_releases (rid : string) (w : Reservation.world)
    (t : Reservation.reservation) :
  find_first (Reservation.is_id rid) (Reservation.reservations w) = Some t ->
  let '(ok, w') := Reservation.cancel_reservation rid w in
  ok = true /\
  Reservation.customers w' = Reservation.customers w /\
  Reservation.reservations w' =
    filter (fun r => negb (Reservation.is_id rid r)) (Reservation.reservations w) /\
  ~ In rid (map Reservation.reservation_id (Reservation.reservations w')) /\
  (forall h, Hotel.find_hotel (Reservation.hotel_id t) (Reservation.hotels w) = Some h ->
     Hotel.rooms_available h < Hotel.rooms h ->
     Hotel.find_hotel (Reservation.hotel_id t) (Reservation.hotels w') =
       Some (Hotel.mkHotel (Hotel.hotel_id h) (Hotel.name h) (Hotel.location h)
               (Hotel.rooms h) (Hotel.rooms_available h + 1))) /\
  ((forall h, Hotel.find_hotel (Reservation.hotel_id t) (Reservation.hotels w) = Some h ->
      Hotel.rooms h <= Hotel.rooms_available h) ->
   Reservation.hotels w' = Reservation.hotels w).
Proof.
  intros Ht. unfold Reservation.cancel_reservation. rewrite Ht.
  unfold Hotel.cancel_reservation.
  destruct (find_first (Hotel.is_id (Reservation.hotel_id t)) (Reservation.hotels w))
    as [h0|] eqn:Hf.
  - destruct (find_first_split _ _ _ Hf) as (pre & post & Hs & Hpre & Hh).
    rewrite Hs, (update_first_app _ _ _ _ _ Hpre Hh).
    unfold Hotel.release_record.
    destruct (Hotel.rooms h0 <=? Hotel.rooms_available h0) eqn:E; simpl.
    + apply Z.leb_le in E.
      split; [reflexivity|split; [reflexivity|split; [reflexivity|]]].
      split; [apply filter_drops_id|]. split; [|reflexivity].
      intros h Hf' Hlt. unfold Hotel.find_hotel in Hf'. try rewrite Hs in Hf'.
      rewrite (find_first_app _ _ _ _ Hpre Hh) in Hf'. injection Hf' as <-. lia.
    + apply Z.leb_gt in E.
      split; [reflexivity|split; [reflexivity|split; [reflexivity|]]].
      split; [apply filter_drops_id|]. split.
      * intros h Hf' _. unfold Hotel.find_hotel in *. try rewrite Hs in Hf'.
        rewrite (find_first_app _ _ _ _ Hpre Hh) in Hf'. injection Hf' as <-.
        apply find_first_app; assumption.
      * intros Hge. specialize (Hge h0). unfold Hotel.find_hotel in Hge.
        try rewrite Hs in Hge. rewrite (find_first_app _ _ _ _ Hpre Hh) in Hge.
        specialize (Hge eq_refl). lia.
  - rewrite (update_first_not_found _ _ _ Hf). simpl.
    split; [reflexivity|split; [reflexivity|split; [reflexivity|]]].
    split; [apply filter_drops_id|]. split; [|reflexivity].
    intros h Hf'. unfold Hotel.find_hotel in Hf'. congruence.
Qed.

Lemma cancel_reservation_releases_witness :
  let w0 := Reservation.mkWorld [] [Hotel.mkHotel "H1" "Grand" "CDMX" 2 1]
              [Reservation.mkReservation "R1" "C1" "H1"] in
  find_first (Reservation.is_id "R1") (Reservation.reservations w0) =
    Some (Reservation.mkReservation "R1" "C1" "H1") /\
  let '(ok, w') := Reservation.cancel_reservation "R1" w0 in
  ok = true /\
  Reservation.customers w' = Reservation.customers w0 /\
  Reservation.reservations w' =
    filter (fun r => negb (Reservation.is_id "R1" r)) (Reservation.reservations w0) /\
  ~ In "R1"%string (map Reservation.reservation_id (Reservation.reservations w')) /\
  (forall h, Hotel.find_hotel "H1" (Reservation.hotels w0) = Some h ->
     Hotel.rooms_available h < Hotel.rooms h ->
     Hotel.find_hotel "H1" (Reservation.hotels w') =
       Some (Hotel.mkHotel (Hotel.hotel_id h) (Hotel.name h) (Hotel.location h)
               (Hotel.rooms h) (Hotel.rooms_available h + 1))) /\
  ((forall h, Hotel.find_hotel "H1" (Reservation.hotels w0) = Some h ->
      Hotel.rooms h <= Hotel.rooms_available h) ->
   Reservation.hotels w' = Reservation.hotels w0).
Proof.
  intros w0. split; [reflexivity|].
  exact (cancel_reservation_releases "R1" w0
           (Reservation.mkReservation "R1" "C1" "H1") eq_refl).
Defined.

(** Claim C10: when the reservation store contains [rid],
    [cancel_reservation] returns true and drops every record with that id
    whatever [Hotel.cancel_reservation] answers for the referenced hotel;
    when that call fails (hotel absent, or [rooms_available] already equal
    to [rooms]) the hotel store is simply left as it was. *)
Theorem cancel_reservation_ignores_release (rid : string) (w : Reservation.world)
    (t : Reservation.reservation) :
  find_first (Reservation.is_id rid) (Reservation.reservations w) = Some t ->
  Reservation.cancel_reservation rid w =
    (true, Reservation.mkWorld (Reservation.customers w)
             (snd (Hotel.cancel_reservation (Reservation.hotel_id t)
                     (Reservation.hotels w)))
             (filter (fun r => negb (Reservation.is_id rid r))
                     (Reservation.reservations w))) /\
  (~ In (Reservation.hotel_id t) (map Hotel.hotel_id (Reservation.hotels w)) \/
   (exists h, Hotel.find_hotel (Reservation.hotel_id t) (Reservation.hotels w) = Some h /\
              Hotel.rooms_available h = Hotel.rooms h) ->
   fst (Hotel.cancel_reservation (Reservation.hotel_id t) (Reservation.hotels w)) = false /\
   Reservation.cancel_reservation rid w =
    (true, Reservation.mkWorld (Reservation.customers w) (Reservation.hotels w)
             (filter (fun r => negb (Reservation.is_id rid r))
                     (Reservation.reservations w)))).
Proof.
  intros Ht.
  assert (Hc : Reservation.cancel_reservation rid w =
    (true, Reservation.mkWorld (Reservation.customers w)
             (snd (Hotel.cancel_reservation (Reservation.hotel_id t)
                     (Reservation.hotels w)))
             (filter (fun r => negb (Reservation.is_id rid r))
                     (Reservation.reservations w)))).
  { unfold Reservation.cancel_reservation. rewrite Ht.
    destruct (Hotel.cancel_reservation _ _). reflexivity. }
  split; [exact Hc|]. rewrite Hc.
  assert (Hfail : Hotel.cancel_reservation (Reservation.hotel_id t)
                    (Reservation.hotels w) = (false, Reservation.hotels w) ->
                  fst (Hotel.cancel_reservation (Reservation.hotel_id t)
                         (Reservation.hotels w)) = false /\
                  (true, Reservation.mkWorld (Reservation.customers w)
                     (snd (Hotel.cancel_reservation (Reservation.hotel_id t)
                             (Reservation.hotels w)))
                     (filter (fun r => negb (Reservation.is_id rid r))
                             (Reservation.reservations w))) =
                  (true, Reservation.mkWorld (Reservation.customers w)
                     (Reservation.hotels w)
                     (filter (fun r => negb (Reservation.is_id rid r))
                             (Reservation.reservations w)))).
  { intros E. rewrite E. split; reflexivity. }
  intros Hcase. apply Hfail. unfold Hotel.cancel_reservation.
  destruct Hcase as [Hnot | (h & Hf & Heq)].
  - rewrite update_first_not_found; [reflexivity|].
    exact (find_first_not_in Hotel.hotel_id _ _ Hnot).
  - unfold Hotel.find_hotel in Hf.
    destruct (find_first_split _ _ _ Hf) as (pre & post & Hs & Hpre & Hh).
    rewrite Hs, (update_first_app _ _ _ _ _ Hpre Hh). unfold Hotel.release_record.
    rewrite Heq, Z.leb_refl. reflexivity.
Qed.

Lemma cancel_reservation_ignores_release_witness :
  Reservation.cancel_reservation "R1"
    (Reservation.mkWorld [] [] [Reservation.mkReservation "R1" "C1" "H9"])
  = (true, Reservation.mkWorld [] [] []).
Proof.
  destruct (cancel_reservation_ignores_release "R1"
              (Reservation.mkWorld [] [] [Reservation.mkReservation "R1" "C1" "H9"])
              (Reservation.mkReservation "R1" "C1" "H9") eq_refl) as [_ H].
  destruct H as [_ H]; [left; simpl; auto|]. exact H.
Defined.

(** ** Loading *)

(** The documented fallbacks: a missing path, and a file that decodes but
    does not parse, load as the empty array. *)
Lemma load_all_missing (parse : list Z -> option Load.json) :
  Load.load_all parse None = Load.Ok (Load.JArr []).
Proof. reflexivity. Qed.

Lemma load_all_parse_error (parse : list Z -> option Load.json) (bytes text : list Z) :
  Load.utf8_decode bytes = Some text -> parse (Load.newlines text) = None ->
  Load.load_all parse (Some (Load.RegularFile bytes)) = Load.Ok (Load.JArr []).
Proof. intros H1 H2. simpl. now rewrite H1, H2. Qed.

(** Claim C8 (code defect): a file holding the single byte 0xFF, which is
    not UTF-8 and hence not JSON, makes [load_all] raise
    [UnicodeDecodeError], which its [except] clause does not catch, whatever
    the JSON parser. *)
Theorem load_all_invalid_utf8_raises (parse : list Z -> option Load.json) :
  Load.load_all parse (Some (Load.RegularFile [255])) =
  Load.Raise Load.UnicodeDecodeError.
Proof. reflexivity. Qed.

Example utf8_decode_samples :
  Load.utf8_decode [104; 105] = Some [104; 105] /\
  Load.utf8_decode [195; 169] = Some [233] /\
  Load.utf8_decode [237; 160; 128] = None /\
  Load.utf8_decode [192; 128] = None.
Proof. repeat split; reflexivity. Qed.

(** * Further properties of the three stores *)

(** ** Identifier uniqueness *)

Lemma update_first_keys {A B} (p : A -> bool) (f : A -> option A) (key : A -> B)
    (l l' : list A) :
  (forall x x', f x = Some x' -> key x' = key x) ->
  update_first p f l = Some l' -> map key l' = map key l.
Proof.
  intros Hf. revert l'. induction l as [|y l IH]; simpl; intros l' H.
  - discriminate.
  - destruct (p y).
    + destruct (f y) as [y'|] eqn:E; simpl in H; [|discriminate].
      injection H as <-. simpl. now rewrite (Hf _ _ E).
    + destruct (update_first p f l) as [l1|]; simpl in H; [|discriminate].
      injection H as <-. simpl. now rewrite (IH l1 eq_refl).
Qed.

Lemma NoDup_map_filter {A B} (key : A -> B) (q : A -> bool) (l : list A) :
  NoDup (map key l) -> NoDup (map key (filter q l)).
Proof.
  induction l as [|x l IH]; simpl; intros H; [constructor|].
  apply NoDup_cons_iff in H as [Hx Hl].
  destruct (q x); simpl; [|auto].
  constructor; [|auto].
  intros Hin. apply Hx. apply in_map_iff in Hin as (y & Ey & Hy).
  apply filter_In in Hy. apply in_map_iff. exists y. split; [exact Ey | apply Hy].
Qed.

Lemma NoDup_map_snoc {A} (key : A -> string) (l : list A) (x : A) :
  NoDup (map key l) -> ~ In (key x) (map key l) -> NoDup (map key (l ++ [x])).
Proof.
  intros Hl Hx. rewrite map_app. apply NoDup_app; [exact Hl | repeat constructor; auto |].
  simpl. intros a Ha [<- | []]. contradiction.
Qed.

(** Every operation of the Hotel store keeps [hotel_id] unique across
    the store: [create_hotel] appends only an absent id, [delete_hotel]
    only drops records, and the mutators never rewrite [hotel_id]. *)
Theorem hotel_ops_keep_ids_unique (o : Hotel.op) (s : Hotel.store) :
  NoDup (map Hotel.hotel_id s) -> NoDup (map Hotel.hotel_id (Hotel.run_op o s)).
Proof.
  intros Hs. destruct o as [hid nm loc rms | hid kw | hid | hid | hid]; simpl.
  - unfold Hotel.create_hotel.
    destruct (py_falsy hid || py_falsy nm); [exact Hs|].
    destruct (negb (Hotel.validate_rooms rms)); [exact Hs|].
    destruct (existsb (Hotel.is_id hid) s) eqn:E; [exact Hs|]. simpl.
    apply NoDup_map_snoc; [exact Hs|]. simpl.
    apply (existsb_id_false Hotel.hotel_id). exact E.
  - unfold Hotel.modify_hotel.
    destruct (update_first _ _ s) as [s'|] eqn:E; simpl; [|exact Hs].
    assert (Hk : forall x x', Hotel.modify_record kw x = Some x' -> Hotel.hotel_id x' = Hotel.hotel_id x).
    { intros x x' H. unfold Hotel.modify_record in H.
    destruct (Hotel.kw_rooms kw); [destruct (Hotel.validate_rooms z)|];
      simpl in H; try discriminate; injection H as <-; reflexivity. }
    rewrite (update_first_keys _ _ Hotel.hotel_id _ _ Hk E). exact Hs.
  - unfold Hotel.reserve_room.
    destruct (update_first _ _ s) as [s'|] eqn:E; simpl; [|exact Hs].
    assert (Hk : forall x x', Hotel.reserve_record x = Some x' -> Hotel.hotel_id x' = Hotel.hotel_id x).
    { intros x x' H. unfold Hotel.reserve_record in H.
    destruct (_ <=? 0); [discriminate|]. injection H as <-. reflexivity. }
    rewrite (update_first_keys _ _ Hotel.hotel_id _ _ Hk E). exact Hs.
  - unfold Hotel.cancel_reservation.
    destruct (update_first _ _ s) as [s'|] eqn:E; simpl; [|exact Hs].
    assert (Hk : forall x x', Hotel.release_record x = Some x' -> Hotel.hotel_id x' = Hotel.hotel_id x).
    { intros x x' H. unfold Hotel.release_record in H.
    destruct (_ <=? _); [discriminate|]. injection H as <-. reflexivity. }
    rewrite (update_first_keys _ _ Hotel.hotel_id _ _ Hk E). exact Hs.
  - unfold Hotel.delete_hotel.
    destruct (Nat.eqb _ _); [exact Hs|]. apply NoDup_map_filter. exact Hs.
Qed.

Lemma hotel_ops_keep_ids_unique_witness :
  NoDup (map Hotel.hotel_id (Hotel.run_op (Hotel.CreateHotel "H2" "Plaza" "GDL" 5)
                               [Hotel.mkHotel "H1" "Grand" "CDMX" 2 2])).
Proof.
  apply hotel_ops_keep_ids_unique. simpl. repeat constructor. intros [].
Defined.

(** Every operation of the Customer store keeps [customer_id] unique. *)
Theorem customer_ops_keep_ids_unique (o : Customer.op) (s : Customer.store) :
  NoDup (map Customer.customer_id s) ->
  NoDup (map Customer.customer_id (Customer.run_op o s)).
Proof.
  intros Hs. destruct o as [cid nm em | cid kw | cid]; simpl.
  - unfold Customer.create_customer.
    destruct (py_falsy cid || py_falsy nm); [exact Hs|].
    destruct (negb (Customer.validate_email em)); [exact Hs|].
    destruct (existsb (Customer.is_id cid) s) eqn:E; [exact Hs|]. simpl.
    apply NoDup_map_snoc; [exact Hs|]. simpl.
    apply (existsb_id_false Customer.customer_id). exact E.
  - unfold Customer.modify_customer.
    destruct (update_first _ _ s) as [s'|] eqn:E; simpl; [|exact Hs].
    assert (Hk : forall x x', Customer.modify_record kw x = Some x' -> Customer.customer_id x' = Customer.customer_id x).
    { intros x x' H. unfold Customer.modify_record in H.
    destruct (Customer.kw_email kw); [destruct (Customer.validate_email s0)|];
      try discriminate; injection H as <-; reflexivity. }
    rewrite (update_first_keys _ _ Customer.customer_id _ _ Hk E). exact Hs.
  - unfold Customer.delete_customer.
    destruct (Nat.eqb _ _); [exact Hs|]. apply NoDup_map_filter. exact Hs.
Qed.

Lemma customer_ops_keep_ids_unique_witness :
  NoDup (map Customer.customer_id
           (Customer.run_op (Customer.CreateCustomer "C2" "Bob" "bob@mail.com")
              [Customer.mkCustomer "C1" "Ana" "ana@mail.com"])).
Proof.
  apply customer_ops_keep_ids_unique. simpl. repeat constructor. intros [].
Defined.

(** [create_reservation] and [cancel_reservation] keep [reservation_id]
    unique across the reservation store. *)
Theorem reservation_ops_keep_ids_unique (rid cid hid : string)
    (w : Reservation.world) :
  NoDup (map Reservation.reservation_id (Reservation.reservations w)) ->
  NoDup (map Reservation.reservation_id
           (Reservation.reservations (snd (Reservation.create_reservation rid cid hid w)))) /\
  NoDup (map Reservation.reservation_id
           (Reservation.reservations (snd (Reservation.cancel_reservation rid w)))).
Proof.
  intros Hs. split.
  - unfold Reservation.create_reservation.
    destruct (py_falsy rid); [exact Hs|].
    destruct (existsb (Reservation.is_id rid) _) eqn:E; [exact Hs|].
    destruct (negb (existsb _ (Reservation.customers w))); [exact Hs|].
    destruct (negb (existsb _ (Reservation.hotels w))); [exact Hs|].
    destruct (Hotel.reserve_room hid (Reservation.hotels w)) as [[|] hs]; simpl;
      [|exact Hs].
    apply NoDup_map_snoc; [exact Hs|]. simpl.
    apply (existsb_id_false Reservation.reservation_id). exact E.
  - unfold Reservation.cancel_reservation.
    destruct (find_first _ _) as [t|]; [|exact Hs].
    destruct (Hotel.cancel_reservation _ _). simpl.
    apply NoDup_map_filter. exact Hs.
Qed.

Lemma reservation_ops_keep_ids_unique_witness :
  NoDup (map Reservation.reservation_id
           (Reservation.reservations
              (snd (Reservation.create_reservation "R2" "C1" "H1"
                      (Reservation.mkWorld [Customer.mkCustomer "C1" "Ana" "a@b"]
                         [Hotel.mkHotel "H1" "Grand" "CDMX" 2 1]
                         [Reservation.mkReservation "R1" "C1" "H1"]))))) /\
  NoDup (map Reservation.reservation_id
           (Reservation.reservations
              (snd (Reservation.cancel_reservation "R2"
                      (Reservation.mkWorld [Customer.mkCustomer "C1" "Ana" "a@b"]
                         [Hotel.mkHotel "H1" "Grand" "CDMX" 2 1]
                         [Reservation.mkReservation "R1" "C1" "H1"]))))).
Proof.
  apply reservation_ops_keep_ids_unique. simpl. repeat constructor. intros [].
Defined.

(** ** Create, look up, delete *)

Lemma filter_other_ids_absent {A} (key : A -> string) (k : string) (l : list A) :
  ~ In k (map key l) -> filter (fun r => negb (String.eqb (key r) k)) l = l.
Proof.
  induction l as [|x l IH]; simpl; intros H; [reflexivity|].
  destruct (String.eqb (key x) k) eqn:E.
  - apply String.eqb_eq in E. exfalso. auto.
  - simpl. f_equal. auto.
Qed.

Lemma filter_other_ids_shorter {A} (key : A -> string) (k : string) (l : list A) :
  In k (map key l) ->
  Nat.eqb (List.length (filter (fun r => negb (String.eqb (key r) k)) l))
          (List.length l) = false.
Proof.
  intros Hin. apply Nat.eqb_neq.
  enough (List.length (filter (fun r => negb (String.eqb (key r) k)) l) < List.length l)%nat
    by lia.
  induction l as [|x l IH]; simpl in *; [destruct Hin|].
  destruct (String.eqb (key x) k) eqn:E; simpl.
  - pose proof (filter_length_le (fun r => negb (String.eqb (key r) k)) l). lia.
  - destruct Hin as [Hx | Hin].
    + subst k. rewrite String.eqb_refl in E. discriminate.
    + specialize (IH Hin). lia.
Qed.

Lemma filter_other_ids_gone {A} (key : A -> string) (k : string) (l : list A) :
  ~ In k (map key (filter (fun r => negb (String.eqb (key r) k)) l)).
Proof.
  rewrite in_map_iff. intros (r & E & Hr). apply filter_In in Hr.
  destruct Hr as [_ Hr]. rewrite E, String.eqb_refl in Hr. discriminate.
Qed.

Lemma find_first_snoc {A} (key : A -> string) (k : string) (l : list A) (x : A) :
  ~ In k (map key l) -> key x = k ->
  find_first (fun r => String.eqb (key r) k) (l ++ [x]) = Some x.
Proof.
  intros Hl Hx. induction l as [|y l IH]; simpl in *.
  - now rewrite Hx, String.eqb_refl.
  - destruct (String.eqb (key y) k) eqn:E.
    + apply String.eqb_eq in E. exfalso. auto.
    + auto.
Qed.

(** [create_hotel] fails, leaving the store as it was, exactly when the id
    or the name is empty, [rooms] is not positive, or the id is already
    present; otherwise it returns the new hotel, with
    [rooms_available = rooms], appended at the end of the store. *)
Theorem create_hotel_outcome (hid nm loc : string) (rms : Z) (s : Hotel.store) :
  match Hotel.create_hotel hid nm loc rms s with
  | (None, s') =>
      s' = s /\
      (hid = ""%string \/ nm = ""%string \/ rms <= 0 \/ In hid (map Hotel.hotel_id s))
  | (Some h, s') =>
      h = Hotel.mkHotel hid nm loc rms rms /\ s' = s ++ [h] /\
      hid <> ""%string /\ nm <> ""%string /\ 0 < rms /\
      ~ In hid (map Hotel.hotel_id s)
  end.
Proof.
  unfold Hotel.create_hotel, py_falsy.
  destruct (String.eqb hid "") eqn:E1; simpl.
  { split; [reflexivity|]. left. now apply String.eqb_eq. }
  destruct (String.eqb nm "") eqn:E2; simpl.
  { split; [reflexivity|]. right; left. now apply String.eqb_eq. }
  unfold Hotel.validate_rooms. destruct (0 <? rms) eqn:E3; simpl.
  2:{ split; [reflexivity|]. right; right; left. apply Z.ltb_ge in E3. exact E3. }
  unfold Hotel.is_id. destruct (existsb _ s) eqn:E4.
  { split; [reflexivity|]. right; right; right. now apply existsb_id_In in E4. }
  apply String.eqb_neq in E1. apply String.eqb_neq in E2. apply Z.ltb_lt in E3.
  apply existsb_id_false in E4. unfold Hotel.init. auto 7.
Qed.

(** [create_customer] fails, leaving the store as it was, exactly when the
    id or the name is empty, the email is empty or has no "@", or the id is
    already present; otherwise it returns the new customer appended at the
    end of the store. *)
Theorem create_customer_outcome (cid nm em : string) (s : Customer.store) :
  match Customer.create_customer cid nm em s with
  | (None, s') =>
      s' = s /\
      (cid = ""%string \/ nm = ""%string \/
       em = ""%string \/ contains_char "@"%char em = false \/
       In cid (map Customer.customer_id s))
  | (Some c, s') =>
      c = Customer.mkCustomer cid nm em /\ s' = s ++ [c] /\
      cid <> ""%string /\ nm <> ""%string /\
      em <> ""%string /\ contains_char "@"%char em = true /\
      ~ In cid (map Customer.customer_id s)
  end.
Proof.
  unfold Customer.create_customer, py_falsy.
  destruct (String.eqb cid "") eqn:E1; simpl.
  { split; [reflexivity|]. left. now apply String.eqb_eq. }
  destruct (String.eqb nm "") eqn:E2; simpl.
  { split; [reflexivity|]. right; left. now apply String.eqb_eq. }
  unfold Customer.validate_email, py_falsy.
  destruct (String.eqb em "") eqn:E3; simpl.
  { split; [reflexivity|]. right; right; left. now apply String.eqb_eq. }
  destruct (contains_char "@" em) eqn:E4; simpl.
  2:{ split; [reflexivity|]. right; right; right; left. reflexivity. }
  unfold Customer.is_id. destruct (existsb _ s) eqn:E5.
  { split; [reflexivity|]. right; right; right; right. now apply existsb_id_In in E5. }
  apply String.eqb_neq in E1. apply String.eqb_neq in E2. apply String.eqb_neq in E3.
  apply existsb_id_false in E5. auto 8.
Qed.

Lemma create_hotel_success (hid nm loc : string) (rms : Z) (s s' : Hotel.store)
    (h : Hotel.hotel) :
  Hotel.create_hotel hid nm loc rms s = (Some h, s') ->
  h = Hotel.init hid nm loc rms /\ s' = s ++ [h] /\ ~ In hid (map Hotel.hotel_id s).
Proof.
  unfold Hotel.create_hotel.
  destruct (py_falsy hid || py_falsy nm); [discriminate|].
  destruct (negb (Hotel.validate_rooms rms)); [discriminate|].
  unfold Hotel.is_id. destruct (existsb _ s) eqn:E; [discriminate|].
  intros H. injection H as <- <-. apply existsb_id_false in E. auto.
Qed.

Lemma create_customer_success (cid nm em : string) (s s' : Customer.store)
    (c : Customer.customer) :
  Customer.create_customer cid nm em s = (Some c, s') ->
  c = Customer.mkCustomer cid nm em /\ s' = s ++ [c] /\
  ~ In cid (map Customer.customer_id s).
Proof.
  unfold Customer.create_customer.
  destruct (py_falsy cid || py_falsy nm); [discriminate|].
  destruct (negb (Customer.validate_email em)); [discriminate|].
  unfold Customer.is_id. destruct (existsb _ s) eqn:E; [discriminate|].
  intros H. injection H as <- <-. apply existsb_id_false in E. auto.
Qed.

(** After a successful [create_hotel], [display_hotel] with the same id
    returns the record just created, and [delete_hotel] with that id
    succeeds and gives back the store as it was before the creation. *)
Theorem create_hotel_then_display_delete (hid nm loc : string) (rms : Z)
    (s s' : Hotel.store) (h : Hotel.hotel) :
  Hotel.create_hotel hid nm loc rms s = (Some h, s') ->
  Hotel.display_hotel hid s' = Some h /\ Hotel.delete_hotel hid s' = (true, s).
Proof.
  intros Hc. destruct (create_hotel_success _ _ _ _ _ _ _ Hc) as (-> & -> & Hnot).
  split.
  - apply (find_first_snoc Hotel.hotel_id); [exact Hnot | reflexivity].
  - unfold Hotel.delete_hotel, Hotel.is_id.
    rewrite (filter_other_ids_shorter Hotel.hotel_id).
    + rewrite filter_app, (filter_other_ids_absent Hotel.hotel_id _ _ Hnot).
      simpl. rewrite String.eqb_refl. simpl. now rewrite app_nil_r.
    + rewrite map_app. apply in_or_app. right. left. reflexivity.
Qed.

Lemma create_hotel_then_display_delete_witness :
  Hotel.display_hotel "H2"
    ([Hotel.mkHotel "H1" "Grand" "CDMX" 2 2] ++ [Hotel.mkHotel "H2" "Plaza" "GDL" 5 5])
    = Some (Hotel.mkHotel "H2" "Plaza" "GDL" 5 5) /\
  Hotel.delete_hotel "H2"
    ([Hotel.mkHotel "H1" "Grand" "CDMX" 2 2] ++ [Hotel.mkHotel "H2" "Plaza" "GDL" 5 5])
    = (true, [Hotel.mkHotel "H1" "Grand" "CDMX" 2 2]).
Proof.
  apply (create_hotel_then_display_delete "H2" "Plaza" "GDL" 5). reflexivity.
Defined.

(** After a successful [create_customer], [display_customer] with the same
    id returns the record just created, and [delete_customer] with that id
    succeeds and gives back the store as it was before the creation. *)
Theorem create_customer_then_display_delete (cid nm em : string)
    (s s' : Customer.store) (c : Customer.customer) :
  Customer.create_customer cid nm em s = (Some c, s') ->
  Customer.display_customer cid s' = Some c /\
  Customer.delete_customer cid s' = (true, s).
Proof.
  intros Hc. destruct (create_customer_success _ _ _ _ _ _ Hc) as (-> & -> & Hnot).
  split.
  - apply (find_first_snoc Customer.customer_id); [exact Hnot | reflexivity].
  - unfold Customer.delete_customer, Customer.is_id.
    rewrite (filter_other_ids_shorter Customer.customer_id).
    + rewrite filter_app, (filter_other_ids_absent Customer.customer_id _ _ Hnot).
      simpl. rewrite String.eqb_refl. simpl. now rewrite app_nil_r.
    + rewrite map_app. apply in_or_app. right. left. reflexivity.
Qed.

Lemma create_customer_then_display_delete_witness :
  Customer.display_customer "C2"
    ([Customer.mkCustomer "C1" "Ana" "ana@mail.com"] ++
     [Customer.mkCustomer "C2" "Bob" "bob@mail.com"])
    = Some (Customer.mkCustomer "C2" "Bob" "bob@mail.com") /\
  Customer.delete_customer "C2"
    ([Customer.mkCustomer "C1" "Ana" "ana@mail.com"] ++
     [Customer.mkCustomer "C2" "Bob" "bob@mail.com"])
    = (true, [Customer.mkCustomer "C1" "Ana" "ana@mail.com"]).
Proof.
  apply (create_customer_then_display_delete "C2" "Bob" "bob@mail.com"). reflexivity.
Defined.

(** [delete_hotel] returns true exactly when the id is present; it then
    drops every record with that id and keeps the others in order, and
    otherwise leaves the store as it was. *)
Theorem delete_hotel_outcome (hid : string) (s : Hotel.store) :
  (In hid (map Hotel.hotel_id s) ->
     Hotel.delete_hotel hid s =
       (true, filter (fun r => negb (Hotel.is_id hid r)) s) /\
     ~ In hid (map Hotel.hotel_id (snd (Hotel.delete_hotel hid s)))) /\
  (~ In hid (map Hotel.hotel_id s) -> Hotel.delete_hotel hid s = (false, s)).
Proof.
  unfold Hotel.delete_hotel, Hotel.is_id. split.
  - intros Hin. rewrite (filter_other_ids_shorter Hotel.hotel_id _ _ Hin).
    split; [reflexivity|]. apply filter_other_ids_gone.
  - intros Hnot. rewrite (filter_other_ids_absent Hotel.hotel_id _ _ Hnot).
    now rewrite Nat.eqb_refl.
Qed.

Lemma delete_hotel_outcome_witness :
  Hotel.delete_hotel "H1"
    [Hotel.mkHotel "H1" "Grand" "CDMX" 2 2; Hotel.mkHotel "H2" "Plaza" "GDL" 5 5;
     Hotel.mkHotel "H1" "Copy" "MTY" 1 1]
  = (true, [Hotel.mkHotel "H2" "Plaza" "GDL" 5 5]) /\
  Hotel.delete_hotel "H9" [Hotel.mkHotel "H1" "Grand" "CDMX" 2 2]
  = (false, [Hotel.mkHotel "H1" "Grand" "CDMX" 2 2]).
Proof.
  split.
  - edestruct (proj1 (delete_hotel_outcome "H1"
      [Hotel.mkHotel "H1" "Grand" "CDMX" 2 2; Hotel.mkHotel "H2" "Plaza" "GDL" 5 5;
       Hotel.mkHotel "H1" "Copy" "MTY" 1 1])) as [H _]; [simpl; auto|].
    rewrite H. reflexivity.
  - apply (proj2 (delete_hotel_outcome "H9" _)). simpl. intros [H|[]]. discriminate.
Defined.

(** [delete_customer] returns true exactly when the id is present; it then
    drops every record with that id and keeps the others in order, and
    otherwise leaves the store as it was. *)
Theorem delete_customer_outcome (cid : string) (s : Customer.store) :
  (In cid (map Customer.customer_id s) ->
     Customer.delete_customer cid s =
       (true, filter (fun r => negb (Customer.is_id cid r)) s) /\
     ~ In cid (map Customer.customer_id (snd (Customer.delete_customer cid s)))) /\
  (~ In cid (map Customer.customer_id s) ->
     Customer.delete_customer cid s = (false, s)).
Proof.
  unfold Customer.delete_customer, Customer.is_id. split.
  - intros Hin. rewrite (filter_other_ids_shorter Customer.customer_id _ _ Hin).
    split; [reflexivity|]. apply filter_other_ids_gone.
  - intros Hnot. rewrite (filter_other_ids_absent Customer.customer_id _ _ Hnot).
    now rewrite Nat.eqb_refl.
Qed.

Lemma delete_customer_outcome_witness :
  Customer.delete_customer "C1" [Customer.mkCustomer "C1" "Ana" "ana@mail.com"]
  = (true, []) /\
  Customer.delete_customer "C9" [Customer.mkCustomer "C1" "Ana" "ana@mail.com"]
  = (false, [Customer.mkCustomer "C1" "Ana" "ana@mail.com"]).
Proof.
  split.
  - edestruct (proj1 (delete_customer_outcome "C1"
      [Customer.mkCustomer "C1" "Ana" "ana@mail.com"])) as [H _]; [simpl; auto|].
    rewrite H. reflexivity.
  - apply (proj2 (delete_customer_outcome "C9" _)). simpl. intros [H|[]]. discriminate.
Defined.

(** ** Room counters *)

(** [reserve_room] acts on the first record with the id: with no such
    record, or with [rooms_available <= 0] there, it fails and leaves the
    store as it was; otherwise it succeeds and only that record changes,
    its [rooms_available] going down by one. *)
Theorem reserve_room_outcome (hid : string) (s : Hotel.store) :
  match Hotel.find_hotel hid s with
  | None => Hotel.reserve_room hid s = (false, s)
  | Some h =>
      if Hotel.rooms_available h <=? 0 then Hotel.reserve_room hid s = (false, s)
      else exists pre post, s = pre ++ h :: post /\
        Hotel.reserve_room hid s =
          (true, pre ++ Hotel.mkHotel (Hotel.hotel_id h) (Hotel.name h)
                          (Hotel.location h) (Hotel.rooms h)
                          (Hotel.rooms_available h - 1) :: post)
  end.
Proof.
  unfold Hotel.find_hotel, Hotel.reserve_room.
  destruct (find_first (Hotel.is_id hid) s) as [h|] eqn:Hf.
  - destruct (find_first_split _ _ _ Hf) as (pre & post & Hs & Hpre & Hh).
    rewrite Hs, (update_first_app _ _ _ _ _ Hpre Hh). unfold Hotel.reserve_record.
    destruct (Hotel.rooms_available h <=? 0); simpl; [reflexivity|]. eauto.
  - now rewrite update_first_not_found.
Qed.

(** [Hotel.cancel_reservation] acts on the first record with the id: with
    no such record, or with [rooms_available >= rooms] there, it fails and
    leaves the store as it was; otherwise it succeeds and only that record
    changes, its [rooms_available] going up by one. *)
Theorem hotel_cancel_outcome (hid : string) (s : Hotel.store) :
  match Hotel.find_hotel hid s with
  | None => Hotel.cancel_reservation hid s = (false, s)
  | Some h =>
      if Hotel.rooms h <=? Hotel.rooms_available h then
        Hotel.cancel_reservation hid s = (false, s)
      else exists pre post, s = pre ++ h :: post /\
        Hotel.cancel_reservation hid s =
          (true, pre ++ Hotel.mkHotel (Hotel.hotel_id h) (Hotel.name h)
                          (Hotel.location h) (Hotel.rooms h)
                          (Hotel.rooms_available h + 1) :: post)
  end.
Proof.
  unfold Hotel.find_hotel, Hotel.cancel_reservation.
  destruct (find_first (Hotel.is_id hid) s) as [h|] eqn:Hf.
  - destruct (find_first_split _ _ _ Hf) as (pre & post & Hs & Hpre & Hh).
    rewrite Hs, (update_first_app _ _ _ _ _ Hpre Hh). unfold Hotel.release_record.
    destruct (Hotel.rooms h <=? Hotel.rooms_available h); simpl; [reflexivity|]. eauto.
  - now rewrite update_first_not_found.
Qed.

(** ** Modifying a hotel *)

(** [modify_hotel] fails and writes nothing when the id is absent or when
    a supplied [rooms] is not positive; in the second case a supplied
    [name] or [location] is not applied either. *)
Theorem modify_hotel_rejects (hid : string) (kw : Hotel.hotel_kwargs)
    (s : Hotel.store) :
  (~ In hid (map Hotel.hotel_id s) \/
   exists v, Hotel.kw_rooms kw = Some v /\ v <= 0) ->
  Hotel.modify_hotel hid kw s = (false, s).
Proof.
  unfold Hotel.modify_hotel. intros [Hnot | (v & Hv & Hle)].
  - rewrite update_first_not_found; [reflexivity|].
    exact (find_first_not_in Hotel.hotel_id _ _ Hnot).
  - destruct (find_first (Hotel.is_id hid) s) as [h|] eqn:Hf.
    + destruct (find_first_split _ _ _ Hf) as (pre & post & Hs & Hpre & Hh).
      rewrite Hs, (update_first_app _ _ _ _ _ Hpre Hh) at 1.
      unfold Hotel.modify_record, Hotel.validate_rooms. rewrite Hv.
      destruct (0 <? v) eqn:E; [apply Z.ltb_lt in E; lia|]. reflexivity.
    + now rewrite update_first_not_found.
Qed.

Lemma modify_hotel_rejects_witness :
  Hotel.modify_hotel "H1" {| Hotel.kw_name := Some "New"%string;
                             Hotel.kw_location := None; Hotel.kw_rooms := Some 0 |}
    [Hotel.mkHotel "H1" "Grand" "CDMX" 2 2]
  = (false, [Hotel.mkHotel "H1" "Grand" "CDMX" 2 2]).
Proof.
  apply modify_hotel_rejects. right. exists 0. split; [reflexivity | lia].
Defined.

(** Without a [rooms] argument, [modify_hotel] on a present id succeeds and
    changes only the first record with that id, replacing [name] and
    [location] when supplied and keeping [rooms] and [rooms_available]. *)
Theorem modify_hotel_without_rooms (hid : string) (kw : Hotel.hotel_kwargs)
    (s : Hotel.store) :
  Hotel.kw_rooms kw = None -> In hid (map Hotel.hotel_id s) ->
  exists pre h post,
    s = pre ++ h :: post /\ Hotel.find_hotel hid s = Some h /\
    Hotel.modify_hotel hid kw s =
      (true, pre ++ Hotel.mkHotel (Hotel.hotel_id h)
                      (Hotel.set_opt (Hotel.kw_name kw) (Hotel.name h))
                      (Hotel.set_opt (Hotel.kw_location kw) (Hotel.location h))
                      (Hotel.rooms h) (Hotel.rooms_available h) :: post).
Proof.
  intros Hr Hin. destruct (find_first_in Hotel.hotel_id _ _ Hin) as [h Hf].
  destruct (find_first_split _ _ _ Hf) as (pre & post & Hs & Hpre & Hh).
  exists pre, h, post. split; [exact Hs|]. split; [exact Hf|].
  unfold Hotel.modify_hotel. rewrite Hs, (update_first_app _ _ _ _ _ Hpre Hh).
  unfold Hotel.modify_record. rewrite Hr. reflexivity.
Qed.

Lemma modify_hotel_without_rooms_witness :
  exists pre h post,
    [Hotel.mkHotel "H1" "Grand" "CDMX" 2 1] = pre ++ h :: post /\
    Hotel.find_hotel "H1" [Hotel.mkHotel "H1" "Grand" "CDMX" 2 1] = Some h /\
    Hotel.modify_hotel "H1" {| Hotel.kw_name := Some "Royal"%string;
                               Hotel.kw_location := None; Hotel.kw_rooms := None |}
      [Hotel.mkHotel "H1" "Grand" "CDMX" 2 1] =
      (true, pre ++ Hotel.mkHotel (Hotel.hotel_id h)
                      (Hotel.set_opt (Some "Royal"%string) (Hotel.name h))
                      (Hotel.set_opt None (Hotel.location h))
                      (Hotel.rooms h) (Hotel.rooms_available h) :: post).
Proof.
  apply (modify_hotel_without_rooms "H1"
    {| Hotel.kw_name := Some "Royal"%string; Hotel.kw_location := None;
       Hotel.kw_rooms := None |}); [reflexivity | simpl; auto].
Defined.

(** ** Reservations across stores *)

(** [create_reservation] and [cancel_reservation] only read the customer
    store: it is the same after either call, whatever the outcome. *)
Theorem reservation_ops_keep_customers (rid cid hid : string)
    (w : Reservation.world) :
  Reservation.customers (snd (Reservation.create_reservation rid cid hid w)) =
    Reservation.customers w /\
  Reservation.customers (snd (Reservation.cancel_reservation rid w)) =
    Reservation.customers w.
Proof.
  split.
  - unfold Reservation.create_reservation.
    destruct (py_falsy rid); [reflexivity|].
    destruct (existsb _ (Reservation.reservations w)); [reflexivity|].
    destruct (negb (existsb _ (Reservation.customers w))); [reflexivity|].
    destruct (negb (existsb _ (Reservation.hotels w))); [reflexivity|].
    destruct (Hotel.reserve_room hid (Reservation.hotels w)) as [[|] hs];
      reflexivity.
  - unfold Reservation.cancel_reservation.
    destruct (find_first _ _) as [t|]; [|reflexivity].
    destruct (Hotel.cancel_reservation _ _). reflexivity.
Qed.

(** [create_reservation] and [cancel_reservation] keep the hotel invariant
    [0 <= rooms_available <= rooms] on every record of the hotel store. *)
Theorem reservation_ops_keep_hotel_invariant (rid cid hid : string)
    (w : Reservation.world) :
  Hotel.store_ok (Reservation.hotels w) ->
  Hotel.store_ok (Reservation.hotels (snd (Reservation.create_reservation rid cid hid w))) /\
  Hotel.store_ok (Reservation.hotels (snd (Reservation.cancel_reservation rid w))).
Proof.
  intros Hs. split.
  - unfold Reservation.create_reservation.
    destruct (py_falsy rid); [exact Hs|].
    destruct (existsb _ (Reservation.reservations w)); [exact Hs|].
    destruct (negb (existsb _ (Reservation.customers w))); [exact Hs|].
    destruct (negb (existsb _ (Reservation.hotels w))); [exact Hs|].
    unfold Hotel.reserve_room.
    destruct (update_first _ _ (Reservation.hotels w)) as [hs|] eqn:E; simpl;
      [|exact Hs].
    exact (update_first_Forall _ _ _ _ _ reserve_record_ok Hs E).
  - unfold Reservation.cancel_reservation.
    destruct (find_first _ _) as [t|]; [|exact Hs].
    unfold Hotel.cancel_reservation.
    destruct (update_first _ _ (Reservation.hotels w)) as [hs|] eqn:E; simpl;
      [|exact Hs].
    exact (update_first_Forall _ _ _ _ _ release_record_ok Hs E).
Qed.

Lemma reservation_ops_keep_hotel_invariant_witness :
  Hotel.store_ok
    (Reservation.hotels
       (snd (Reservation.create_reservation "R1" "C1" "H1"
               (Reservation.mkWorld [Customer.mkCustomer "C1" "Ana" "a@b"]
                  [Hotel.mkHotel "H1" "Grand" "CDMX" 2 1] [])))) /\
  Hotel.store_ok
    (Reservation.hotels
       (snd (Reservation.cancel_reservation "R1"
               (Reservation.mkWorld [Customer.mkCustomer "C1" "Ana" "a@b"]
                  [Hotel.mkHotel "H1" "Grand" "CDMX" 2 1] [])))).
Proof.
  apply reservation_ops_keep_hotel_invariant.
  constructor; [unfold Hotel.record_ok; simpl; lia | constructor].
Defined.

(** On a hotel store satisfying the invariant, cancelling a reservation
    right after creating it successfully gives back all three stores
    exactly as they were before the creation. *)
Theorem create_then_cancel_reservation (rid cid hid : string)
    (w w' : Reservation.world) (r : Reservation.reservation) :
  Hotel.store_ok (Reservation.hotels w) ->
  Reservation.create_reservation rid cid hid w = (Some r, w') ->
  Reservation.cancel_reservation rid w' = (true, w).
Proof.
  intros Hok. unfold Reservation.create_reservation.
  destruct (py_falsy rid); [discriminate|].
  unfold Reservation.is_id at 1.
  destruct (existsb _ (Reservation.reservations w)) eqn:E2; [discriminate|].
  apply existsb_id_false in E2.
  destruct (negb (existsb _ (Reservation.customers w))); [discriminate|].
  destruct (negb (existsb _ (Reservation.hotels w))); [discriminate|].
  unfold Hotel.reserve_room.
  destruct (find_first (Hotel.is_id hid) (Reservation.hotels w)) as [h|] eqn:Hf.
  2:{ rewrite update_first_not_found by exact Hf. discriminate. }
  destruct (find_first_split _ _ _ Hf) as (pre & post & Hs & Hpre & Hh).
  assert (Hh_ok : Hotel.record_ok h).
  { unfold Hotel.store_ok in Hok. rewrite Forall_forall in Hok. apply Hok.
    rewrite Hs. apply in_or_app. right. left. reflexivity. }
  rewrite Hs, (update_first_app _ _ _ _ _ Hpre Hh).
  unfold Hotel.reserve_record.
  destruct (Hotel.rooms_available h <=? 0) eqn:E5; simpl; [discriminate|].
  apply Z.leb_gt in E5. intros H. injection H as <- <-.
  unfold Reservation.cancel_reservation. simpl.
  unfold Reservation.is_id at 1.
  rewrite (find_first_snoc Reservation.reservation_id rid _
             (Reservation.mkReservation rid cid hid) E2 eq_refl). simpl.
  unfold Hotel.cancel_reservation.
  rewrite (update_first_app _ _ _ _
             (Hotel.mkHotel (Hotel.hotel_id h) (Hotel.name h) (Hotel.location h)
                (Hotel.rooms h) (Hotel.rooms_available h - 1)) Hpre Hh).
  unfold Hotel.release_record. simpl. unfold Hotel.record_ok in Hh_ok.
  destruct (Hotel.rooms h <=? Hotel.rooms_available h - 1) eqn:E6;
    [apply Z.leb_le in E6; lia|]. simpl.
  rewrite filter_app. unfold Reservation.is_id.
  rewrite (filter_other_ids_absent Reservation.reservation_id _ _ E2).
  simpl. rewrite String.eqb_refl. simpl. rewrite app_nil_r.
  replace (Hotel.rooms_available h - 1 + 1) with (Hotel.rooms_available h) by lia.
  destruct h, w. simpl in *. now rewrite <- Hs.
Qed.

Lemma create_then_cancel_reservation_witness :
  let w0 := Reservation.mkWorld [Customer.mkCustomer "C1" "Ana" "a@b"]
              [Hotel.mkHotel "H1" "Grand" "CDMX" 2 1] [] in
  Reservation.cancel_reservation "R1"
    (snd (Reservation.create_reservation "R1" "C1" "H1" w0)) = (true, w0).
Proof.
  intros w0.
  apply (create_then_cancel_reservation "R1" "C1" "H1" w0 _
           (Reservation.mkReservation "R1" "C1" "H1")).
  - constructor; [unfold Hotel.record_ok; simpl; lia | constructor].
  - reflexivity.
Defined.

(** ** Dictionary round trips *)






